(** * The layout component of falmusha.me

    A shallow embedding of [src/layouts/index.js] (the Gatsby v1 layout
    component and its [LayoutQuery]) and of the [siteMetadata] block of
    [gatsby-config.js], with the properties the site specification states
    about the "Page Composer". *)

From stdpp Require Import base option list strings gmap fin_maps.

Local Open Scope string_scope.

(** ** JavaScript values *)

(** What an element is an element of.  [styled.div`...`] builds a component
    from a host tag and a style sheet; [Helmet] and [Header] are components
    imported from other modules and only referred to by the layout;
    ["style"] is a host tag. *)
Inductive eltype : Type :=
  | Host (tag : string)
  | Styled (tag : string) (css : string)
  | Imported (name : string).

#[global] Instance eltype_eq_dec : EqDecision eltype.
Proof. solve_decision. Defined.

(** The two ways the evaluation of [layout] can raise a [TypeError]. *)
Inductive type_error : Type :=
  | ReadOfNullish (prop : string)   (* reading [x.prop] with [x] undefined or null *)
  | NotCallable.                    (* calling a value that is no function *)

(** What is thrown: a [TypeError] of the engine, or a value thrown by the
    code of a callback. *)
Inductive exn (V : Type) : Type :=
  | TypeError (why : type_error)
  | Thrown (v : V).
Arguments TypeError {V} why.
Arguments Thrown {V} v.

(** A completion: normal, with a value, or abrupt. *)
Inductive outcome (V A : Type) : Type :=
  | Return (a : A)
  | Throw (e : exn V).
Arguments Return {V A} a.
Arguments Throw {V A} e.

Set Warnings "-register-all".

Section Values.
(** The state of the rest of the program, which a callback may read and
    change. *)
Context {W : Type}.

(** Numbers are kept to the integers; the layout computes with none.  A
    function value is what calling it with no argument does: [layout] calls
    its only callback as [children()].  An element is what
    [React.createElement(type, props, ...children)] returns. *)
Inductive value : Type :=
  | VUndefined
  | VNull
  | VBool (b : bool)
  | VNum (n : Z)
  | VStr (s : string)
  | VArr (items : list value)
  | VObj (fields : gmap string value)
  | VFun (call : W -> outcome value value * W)
  | VElem (type : eltype) (props : gmap string value) (children : list value).

End Values.
Arguments value : clear implicits.

(** ** Site configuration: [gatsby-config.js] *)

Record SiteMetadata : Type := { title : string; author : string }.

Definition siteMetadata : SiteMetadata :=
  {| title := "Fahad Almusharraf - Website"; author := "Fahad Almusharraf" |}.

(** The default export of [../colors], taken as a parameter [COLORS] of the
    layout: the three colour tokens it interpolates, as strings. *)
Record Colors : Type := { DARK : string; BLACK : string; LIGHTEST : string }.

(** ** Text of the template literals *)

Definition nl : string := String (Ascii.ascii_of_nat 10) EmptyString.
Definition dq : string := String (Ascii.ascii_of_nat 34) EmptyString.

Definition unlines (ls : list string) : string :=
  foldr (fun l acc => l ++ nl ++ acc) EmptyString ls.

Section Layout.
Context {W : Type} (COLORS : Colors).

Local Abbreviation val := (value W).

(** ** Evaluation: state passing with abrupt completion *)

Definition js (A : Type) : Type := W -> outcome val A * W.

#[global] Instance js_ret : MRet js := fun A a w => (Return a, w).

#[global] Instance js_bind : MBind js := fun A B k m w =>
  match m w with
  | (Return a, w') => k a w'
  | (Throw e, w') => (Throw e, w')
  end.

Definition throw {A : Type} (e : exn val) : js A := fun w => (Throw e, w).

Definition nullish (v : val) : bool :=
  match v with
  | VUndefined | VNull => true
  | _ => false
  end.

(** The property [p] of a value that is neither undefined nor null.  Only
    objects carry the properties the layout names (children, data, site,
    siteMetadata, title); on every other value they are undefined. *)
Definition field (v : val) (p : string) : val :=
  match v with
  | VObj fields => default VUndefined (fields !! p)
  | _ => VUndefined
  end.

(** [v.p] *)
Definition get_prop (v : val) (p : string) : js val :=
  if nullish v then throw (TypeError (ReadOfNullish p)) else mret (field v p).

(** [v()] *)
Definition call (v : val) : js val :=
  match v with
  | VFun f => f
  | _ => throw (TypeError NotCallable)
  end.

(** ** [src/layouts/index.js] *)

Definition Helmet : eltype := Imported "react-helmet".
Definition Header : eltype := Imported "../components/Header".

Definition Body : eltype :=
  Styled "div"
    (nl ++ unlines
       [ "  display: flex;";
         "  flex-direction: column;";
         "  max-width: 800px;";
         "  margin: 0px auto;";
         "  font-family: -apple-system, BlinkMacSystemFont, " ++ dq ++ "Segoe UI"
           ++ dq ++ ", Roboto, Helvetica,";
         "    Arial, sans-serif, " ++ dq ++ "Apple Color Emoji" ++ dq ++ ", "
           ++ dq ++ "Segoe UI Emoji" ++ dq ++ ", " ++ dq ++ "Segoe UI Symbol"
           ++ dq ++ ";";
         "";
         "  a {";
         "    color: " ++ DARK COLORS ++ ";";
         "    &:hover {";
         "      color: " ++ BLACK COLORS ++ ";";
         "    }";
         "  }" ]).

Definition Container : eltype := Styled "div" "".

(** The text inside [<style type="text/css">]. *)
Definition style_text : string :=
  nl ++ unlines
    [ "        body {";
      "          background-color: " ++ LIGHTEST COLORS ++ ";";
      "        }" ] ++ "    ".

(** The JSX expression of the component, as a function of the two values
    interpolated into it: [data.site.siteMetadata.title] and the result of
    [children()].  White space between the tags is no child. *)
Definition layout_jsx (title content : val) : val :=
  VElem Body ∅
    [ VElem Helmet
        {[ "title" := title;
           "meta" := VArr
             [ VObj {[ "name" := VStr "description";
                       "content" := VStr "Personal website" ]};
               VObj {[ "name" := VStr "keywords";
                       "content" := VStr "blog, showcase, personal" ]} ] ]}
        [ VElem (Host "style") {[ "type" := VStr "text/css" ]}
            [ VStr style_text ] ];
      VElem Header ∅ [];
      VElem Container ∅ [ content ] ].

(** [export default ({ children, data }) => ( ... )].  The argument is
    destructured, then the arguments of the nested [createElement] calls
    are evaluated from left to right: the title is read before
    [children()] is called. *)
Definition layout (props : val) : js val :=
  children ← get_prop props "children";
  data ← get_prop props "data";
  site ← get_prop data "site";
  siteMetadata ← get_prop site "siteMetadata";
  title ← get_prop siteMetadata "title";
  content ← call children;
  mret (layout_jsx title content).

(** [export const query = graphql`query LayoutQuery { ... }`]: of the site
    metadata the query selects the title, and nothing else.  [site_data] is
    the shape of the [data] prop. *)
Definition site_data (siteMetadata : val) : val :=
  VObj {[ "site" := VObj {[ "siteMetadata" := siteMetadata ]} ]}.

Definition LayoutQuery (M : SiteMetadata) : val :=
  site_data (VObj {[ "title" := VStr (title M) ]}).

(** The whole [siteMetadata] object of the configuration. *)
Definition metadata_object (M : SiteMetadata) : gmap string val :=
  {[ "title" := VStr (title M); "author" := VStr (author M) ]}.

(** The object the component is applied to: [{ children, data }]. *)
Definition layout_props (children data : val) : val :=
  VObj {[ "children" := children; "data" := data ]}.

(** [() => content] *)
Definition thunk (content : val) : val := VFun (fun w => (Return content, w)).

(** ** Reading the composed document *)

Definition elem_props (v : val) : gmap string val :=
  match v with
  | VElem _ props _ => props
  | _ => ∅
  end.

Definition elem_children (v : val) : list val :=
  match v with
  | VElem _ _ children => children
  | _ => []
  end.

Definition is_elem_of (t : eltype) (v : val) : bool :=
  match v with
  | VElem t' _ _ => bool_decide (t' = t)
  | _ => false
  end.

(** The first child of [doc] that is an element of [t]. *)
Definition find_child (t : eltype) (doc : val) : option val :=
  List.find (is_elem_of t) (elem_children doc).

(** The document-level title: the [title] handed to [Helmet]. *)
Definition doc_title (doc : val) : option val :=
  h ← find_child Helmet doc; elem_props h !! "title".

(** The content of the metadata tag called [name], among the [meta]
    handed to [Helmet]. *)
Definition has_name (name : string) (tag : val) : bool :=
  match field tag "name" with
  | VStr s => bool_decide (s = name)
  | _ => false
  end.

Definition meta_content (name : string) (doc : val) : option val :=
  h ← find_child Helmet doc;
  match elem_props h !! "meta" with
  | Some (VArr tags) => tag ← List.find (has_name name) tags; Some (field tag "content")
  | _ => None
  end.

(** The global style sheet: what is inside the [style] tag of [Helmet]. *)
Definition doc_style (doc : val) : option (list val) :=
  h ← find_child Helmet doc;
  s ← find_child (Host "style") h;
  Some (elem_children s).

Definition header_region (doc : val) : option val := find_child Header doc.

(** What is inside the [Container]. *)
Definition content_region (doc : val) : option (list val) :=
  elem_children <$> find_child Container doc.

(** Content that shows nothing: undefined, null, the empty string, and
    lists of these. *)
Fixpoint empty_content (c : val) : bool :=
  match c with
  | VUndefined | VNull => true
  | VStr s => bool_decide (s = "")
  | VArr items => forallb empty_content items
  | _ => false
  end.

(** ** When the layout throws *)

Definition throws {A : Type} (r : outcome val A * W) : bool :=
  match r.1 with
  | Throw _ => true
  | Return _ => false
  end.

Definition callable (v : val) : bool :=
  match v with
  | VFun _ => true
  | _ => false
  end.

(** The site metadata the layout reads: [props.data.site.siteMetadata],
    undefined as soon as one link of the chain is missing. *)
Definition site_metadata_of (props : val) : val :=
  field (field (field props "data") "site") "siteMetadata".

Definition metadata_absent (props : val) : bool :=
  nullish (site_metadata_of props).

End Layout.

(** ** Inputs used in the examples *)

Definition example_colors : Colors :=
  {| DARK := "#333333"; BLACK := "#000000"; LIGHTEST := "#fafafa" |}.

(** A content function with an effect: the state counts its calls. *)
Definition count_and_return (content : value nat) : js (W:=nat) (value nat) :=
  fun n => (Return content, S n).

Definition counting (content : value nat) : value nat :=
  VFun (count_and_return content).

(** A content function that throws what it is given. *)
Definition failing (v : value nat) : value nat :=
  VFun (throw (Thrown v)).

(** * Properties *)

Section LayoutFacts.
Context {W : Type} (COLORS : Colors).

Local Abbreviation val := (value W).

Implicit Types (v props data c t ch sm children : val) (m : gmap string val) (w : W).

(** *** Text *)

Lemma append_assoc (a b c : string) : ((a ++ b) ++ c = a ++ b ++ c)%string.
Proof.
  induction a as [|x a IH]; [done|].
  change (String x ((a ++ b) ++ c) = String x (a ++ b ++ c))%string.
  by rewrite IH.
Qed.

(** *** Evaluation steps *)

Lemma bind_eq {A B : Type} (mA : js (W:=W) A) (k : A -> js (W:=W) B) w :
  (mA ≫= k) w =
  match mA w with
  | (Return a, w') => k a w'
  | (Throw e, w') => (Throw e, w')
  end.
Proof. reflexivity. Qed.

Lemma field_nullish v p : nullish v = true -> field v p = VUndefined.
Proof. by destruct v. Qed.

Lemma get_prop_nullish v p w :
  nullish v = true -> get_prop v p w = (Throw (TypeError (ReadOfNullish p)), w).
Proof. intros Hv. unfold get_prop. by rewrite Hv. Qed.

Lemma get_prop_value v p w :
  nullish v = false -> get_prop v p w = (Return (field v p), w).
Proof. intros Hv. unfold get_prop. by rewrite Hv. Qed.

Lemma call_not_callable v w :
  callable v = false -> call v w = (Throw (TypeError NotCallable), w).
Proof. by destruct v. Qed.

Lemma callable_VFun v : callable v = true <-> exists f, v = VFun f.
Proof.
  split.
  - destruct v; try discriminate. eauto.
  - by intros [f ->].
Qed.

(** *** The two regimes of [layout] *)

(** Without site metadata the first failing read raises, before
    [children] is called and with the state untouched. *)
Lemma layout_metadata_absent props :
  metadata_absent props = true ->
  exists p, forall w, layout COLORS props w = (Throw (TypeError (ReadOfNullish p)), w).
Proof.
  unfold metadata_absent, site_metadata_of. intros Habs.
  destruct (nullish props) eqn:Hprops.
  { exists "children". intros w. unfold layout.
    by rewrite bind_eq, get_prop_nullish. }
  destruct (nullish (field props "data")) eqn:Hdata.
  { exists "site". intros w. unfold layout.
    rewrite bind_eq, get_prop_value by done.
    rewrite bind_eq, get_prop_value by done.
    by rewrite bind_eq, get_prop_nullish. }
  destruct (nullish (field (field props "data") "site")) eqn:Hsite.
  { exists "siteMetadata". intros w. unfold layout.
    rewrite bind_eq, get_prop_value by done.
    rewrite bind_eq, get_prop_value by done.
    rewrite bind_eq, get_prop_value by done.
    by rewrite bind_eq, get_prop_nullish. }
  exists "title". intros w. unfold layout.
  rewrite bind_eq, get_prop_value by done.
  rewrite bind_eq, get_prop_value by done.
  rewrite bind_eq, get_prop_value by done.
  rewrite bind_eq, get_prop_value by done.
  by rewrite bind_eq, get_prop_nullish.
Qed.

(** With site metadata the layout is the call of [children], followed by
    the construction of the document. *)
Lemma layout_metadata_present props w :
  metadata_absent props = false ->
  layout COLORS props w =
  match call (field props "children") w with
  | (Return c, w') =>
      (Return (layout_jsx COLORS (field (site_metadata_of props) "title") c), w')
  | (Throw e, w') => (Throw e, w')
  end.
Proof.
  unfold metadata_absent, site_metadata_of. intros Hpres.
  assert (Hsite : nullish (field (field props "data") "site") = false).
  { destruct (nullish (field (field props "data") "site")) eqn:E; [|done].
    by rewrite (field_nullish _ _ E) in Hpres. }
  assert (Hdata : nullish (field props "data") = false).
  { destruct (nullish (field props "data")) eqn:E; [|done].
    by rewrite (field_nullish _ _ E) in Hsite. }
  assert (Hprops : nullish props = false).
  { destruct (nullish props) eqn:E; [|done].
    by rewrite (field_nullish _ _ E) in Hdata. }
  unfold layout.
  rewrite bind_eq, get_prop_value by done.
  rewrite bind_eq, get_prop_value by done.
  rewrite bind_eq, get_prop_value by done.
  rewrite bind_eq, get_prop_value by done.
  rewrite bind_eq, get_prop_value by done.
  rewrite bind_eq.
  destruct (call (field props "children") w) as [[c|e] w']; reflexivity.
Qed.

(** *** Well-formed props *)

Lemma field_children ch data : field (layout_props ch data) "children" = ch.
Proof. reflexivity. Qed.

Lemma site_metadata_of_props ch sm :
  site_metadata_of (layout_props ch (site_data sm)) = sm.
Proof. reflexivity. Qed.

Lemma layout_returns m f c w w' :
  f w = (Return c, w') ->
  layout COLORS (layout_props (VFun f) (site_data (VObj m))) w =
  (Return (layout_jsx COLORS (default VUndefined (m !! "title")) c), w').
Proof.
  intros Hf. rewrite layout_metadata_present by reflexivity.
  rewrite field_children, site_metadata_of_props. simpl. by rewrite Hf.
Qed.

Lemma LayoutQuery_title_only (M1 M2 : SiteMetadata) :
  title M1 = title M2 -> LayoutQuery (W:=W) M1 = LayoutQuery M2.
Proof. unfold LayoutQuery. by intros ->. Qed.

(** *** The parts of the document *)

Lemma doc_title_jsx t c : doc_title (layout_jsx COLORS t c) = Some t.
Proof. reflexivity. Qed.

Lemma meta_description_jsx t c :
  meta_content "description" (layout_jsx COLORS t c) = Some (VStr "Personal website").
Proof. reflexivity. Qed.

Lemma meta_keywords_jsx t c :
  meta_content "keywords" (layout_jsx COLORS t c) = Some (VStr "blog, showcase, personal").
Proof. reflexivity. Qed.

Lemma doc_style_jsx t c :
  doc_style (layout_jsx COLORS t c) = Some [VStr (style_text COLORS)].
Proof. reflexivity. Qed.

Lemma header_region_jsx t c :
  header_region (layout_jsx COLORS t c) = Some (VElem Header ∅ []).
Proof. reflexivity. Qed.

Lemma content_region_jsx t c : content_region (layout_jsx COLORS t c) = Some [c].
Proof. reflexivity. Qed.

(** *** The claims *)

(** C1. For site metadata [M] and content [c], whatever it is, the empty
    content included: when the [siteMetadata] object handed to the layout
    carries the title of [M] and the content function returns [c], the
    layout returns a document whose title is [M]'s title. *)
Theorem title_tag_is_site_title (M : SiteMetadata) m f c w w' :
  m !! "title" = Some (VStr (title M)) ->
  f w = (Return c, w') ->
  exists doc,
    layout COLORS (layout_props (VFun f) (site_data (VObj m))) w = (Return doc, w')
    /\ doc_title doc = Some (VStr (title M)).
Proof.
  intros Hm Hf. eexists. split; [by apply layout_returns|].
  by rewrite doc_title_jsx, Hm.
Qed.

(** C2. Composition is a function of its input with no effect of its own.
    With content given as markup [c] (the content function [() => c]) the
    same document comes out in every state, and the state is left as it
    was; and for any props at all, the state after the layout is the state
    its one call of [children] leaves, or the initial state when the
    metadata is missing and [children] is never called. *)
Theorem layout_is_pure :
  (forall m c, exists doc, forall w,
      layout COLORS (layout_props (thunk c) (site_data (VObj m))) w = (Return doc, w))
  /\ (forall props w,
      (layout COLORS props w).2 =
      if metadata_absent props then w else (call (field props "children") w).2).
Proof.
  split.
  - intros m c. eexists. intros w. by apply layout_returns.
  - intros props w. destruct (metadata_absent props) eqn:Habs.
    + destruct (layout_metadata_absent props Habs) as [p Hp]. by rewrite Hp.
    + rewrite layout_metadata_present by done.
      by destruct (call (field props "children") w) as [[c|e] w'].
Qed.

(** C3, as the code has it.  When the content function is there and returns
    nothing, the document is produced with its header, its global style
    and a content region that holds nothing; when the content function
    itself is left out of the props, the call [children()] raises a
    TypeError and there is no document. *)
Theorem content_omitted m f w w' :
  f w = (Return VUndefined, w') ->
  (exists doc,
      layout COLORS (layout_props (VFun f) (site_data (VObj m))) w = (Return doc, w')
      /\ header_region doc = Some (VElem Header ∅ [])
      /\ doc_style doc = Some [VStr (style_text COLORS)]
      /\ content_region doc = Some [VUndefined])
  /\ layout COLORS (VObj {[ "data" := site_data (VObj m) ]}) w
     = (Throw (TypeError NotCallable), w).
Proof.
  intros Hf. split.
  - eexists. split; [by apply layout_returns|].
    by rewrite header_region_jsx, doc_style_jsx, content_region_jsx.
  - by rewrite layout_metadata_present.
Qed.

(** C4, as the code has it.  Without site metadata the layout fails at
    once, with a TypeError, before the content function is called and
    without touching the state.  With the metadata present it throws
    exactly when [children] is no function (a TypeError again) or the call
    of [children] throws. *)
Theorem layout_throws_iff props w :
  (metadata_absent props = true ->
   exists p, layout COLORS props w = (Throw (TypeError (ReadOfNullish p)), w))
  /\ (throws (layout COLORS props w) = true <->
      metadata_absent props = true
      \/ callable (field props "children") = false
      \/ exists f, field props "children" = VFun f /\ throws (f w) = true).
Proof.
  split.
  { intros Habs. destruct (layout_metadata_absent props Habs) as [p Hp]. eauto. }
  destruct (metadata_absent props) eqn:Habs.
  { destruct (layout_metadata_absent props Habs) as [p Hp].
    rewrite Hp. split; [by left | done]. }
  rewrite layout_metadata_present by done.
  destruct (field props "children") as [| | | | | | |f|] eqn:Hch;
    try (split; [by right; left | done]).
  simpl. unfold throws. destruct (f w) as [[c|e] w'] eqn:Hf; simpl.
  - split; [done|]. intros [?|[?|(g & Hg & Hthrow)]]; try done.
    injection Hg as <-. by rewrite Hf in Hthrow.
  - split; [|done]. intros _. right; right. exists f. by rewrite Hf.
Qed.

(** C5. Whatever the metadata and the content, the document carries the
    two fixed metadata tags: description "Personal website" and keywords
    "blog, showcase, personal". *)
Theorem fixed_meta_tags m f c w w' :
  f w = (Return c, w') ->
  exists doc,
    layout COLORS (layout_props (VFun f) (site_data (VObj m))) w = (Return doc, w')
    /\ meta_content "description" doc = Some (VStr "Personal website")
    /\ meta_content "keywords" doc = Some (VStr "blog, showcase, personal").
Proof.
  intros Hf. eexists. split; [by apply layout_returns|].
  by rewrite meta_description_jsx, meta_keywords_jsx.
Qed.

(** C6. When the body handed over by the content function is empty, the
    layout does not throw: it returns a document whose content region
    holds nothing, with the title, the header and the global style in
    place as usual. *)
Theorem empty_body_renders_empty_region (M : SiteMetadata) m f c w w' :
  m !! "title" = Some (VStr (title M)) ->
  f w = (Return c, w') ->
  empty_content c = true ->
  exists doc region,
    layout COLORS (layout_props (VFun f) (site_data (VObj m))) w = (Return doc, w')
    /\ content_region doc = Some region
    /\ forallb empty_content region = true
    /\ doc_title doc = Some (VStr (title M))
    /\ header_region doc = Some (VElem Header ∅ [])
    /\ doc_style doc = Some [VStr (style_text COLORS)].
Proof.
  intros Hm Hf Hc. exists (layout_jsx COLORS (VStr (title M)) c), [c].
  split; [|split; [|split]].
  - rewrite (layout_returns m f c w w' Hf). by rewrite Hm.
  - apply content_region_jsx.
  - simpl. by rewrite Hc.
  - by rewrite doc_title_jsx, header_region_jsx, doc_style_jsx.
Qed.

(** C7. With the metadata of [gatsby-config.js], handed over whole or as
    [LayoutQuery] selects it, and the content "<p>Hello</p>", the document
    has the title "Fahad Almusharraf - Website" and a content region that
    holds "<p>Hello</p>". *)
Theorem example_page w :
  (exists doc,
      layout COLORS
        (layout_props (thunk (VStr "<p>Hello</p>"))
           (site_data (VObj (metadata_object siteMetadata)))) w = (Return doc, w)
      /\ doc_title doc = Some (VStr "Fahad Almusharraf - Website")
      /\ content_region doc = Some [VStr "<p>Hello</p>"])
  /\ (exists doc,
      layout COLORS
        (layout_props (thunk (VStr "<p>Hello</p>")) (LayoutQuery siteMetadata)) w
        = (Return doc, w)
      /\ doc_title doc = Some (VStr "Fahad Almusharraf - Website")
      /\ content_region doc = Some [VStr "<p>Hello</p>"]).
Proof.
  split; eexists; (split; [by apply layout_returns|]);
    by rewrite doc_title_jsx, content_region_jsx.
Qed.

(** C8. Whatever the metadata and the content, the document is the shared
    frame in its fixed order: the [Body] holding the [Helmet] with the
    global style, whose text sets the body background colour to the
    LIGHTEST token, then the [Header], then the [Container] holding the
    content and nothing else. *)
Theorem shared_frame m f c w w' :
  f w = (Return c, w') ->
  exists doc helmet,
    layout COLORS (layout_props (VFun f) (site_data (VObj m))) w = (Return doc, w')
    /\ doc = VElem (Body COLORS) ∅ [helmet; VElem Header ∅ []; VElem Container ∅ [c]]
    /\ is_elem_of Helmet helmet = true
    /\ header_region doc = Some (VElem Header ∅ [])
    /\ doc_style doc = Some [VStr (style_text COLORS)]
    /\ style_text COLORS =
       nl ++ "        body {" ++ nl
          ++ "          background-color: " ++ LIGHTEST COLORS ++ ";" ++ nl
          ++ "        }" ++ nl ++ "    "
    /\ content_region doc = Some [c].
Proof.
  intros Hf. eexists. eexists. split; [by apply layout_returns|].
  split; [reflexivity|]. split; [reflexivity|].
  rewrite header_region_jsx, doc_style_jsx, content_region_jsx.
  repeat split. unfold style_text, unlines. simpl.
  by rewrite !append_assoc.
Qed.

(** C9. Of the site metadata only the title reaches the document: two
    [siteMetadata] objects with the same title, whatever their author and
    other fields, give the same result with the same content function. *)
Theorem output_depends_on_title_only m1 m2 children w :
  m1 !! "title" = m2 !! "title" ->
  layout COLORS (layout_props children (site_data (VObj m1))) w =
  layout COLORS (layout_props children (site_data (VObj m2))) w.
Proof.
  intros Htitle. rewrite !layout_metadata_present by reflexivity.
  rewrite !field_children, !site_metadata_of_props. simpl. by rewrite Htitle.
Qed.

(** C10. The content is taken as a function of no argument: whenever the
    layout returns a document, [children] was a function, it was called in
    the initial state, and what it returned is what the container holds.
    A [children] that is no function gives no document. *)
Theorem content_is_called props w doc w' :
  layout COLORS props w = (Return doc, w') ->
  exists f c,
    field props "children" = VFun f
    /\ f w = (Return c, w')
    /\ content_region doc = Some [c].
Proof.
  intros Hlayout. destruct (metadata_absent props) eqn:Habs.
  { destruct (layout_metadata_absent props Habs) as [p Hp].
    by rewrite Hp in Hlayout. }
  rewrite layout_metadata_present in Hlayout by done.
  destruct (field props "children") as [| | | | | | |f|]; try done.
  simpl in Hlayout. destruct (f w) as [[c|e] w''] eqn:Hf; [|done].
  injection Hlayout as <- <-. exists f, c. by rewrite content_region_jsx.
Qed.

(** *** Further properties of [layout] *)

(** The whole evaluation of [layout], read by read. *)
Lemma layout_unfold props w :
  layout COLORS props w =
  if nullish props then (Throw (TypeError (ReadOfNullish "children")), w)
  else if nullish (field props "data") then (Throw (TypeError (ReadOfNullish "site")), w)
  else if nullish (field (field props "data") "site")
    then (Throw (TypeError (ReadOfNullish "siteMetadata")), w)
  else if nullish (site_metadata_of props)
    then (Throw (TypeError (ReadOfNullish "title")), w)
  else
    match call (field props "children") w with
    | (Return c, w') =>
        (Return (layout_jsx COLORS (field (site_metadata_of props) "title") c), w')
    | (Throw e, w') => (Throw e, w')
    end.
Proof.
  unfold site_metadata_of, layout.
  destruct (nullish props) eqn:Hprops.
  { by rewrite bind_eq, get_prop_nullish. }
  rewrite bind_eq, get_prop_value by done.
  destruct (nullish (field props "data")) eqn:Hdata.
  { rewrite bind_eq, get_prop_value by done.
    by rewrite bind_eq, get_prop_nullish. }
  rewrite bind_eq, get_prop_value by done.
  destruct (nullish (field (field props "data") "site")) eqn:Hsite.
  { rewrite bind_eq, get_prop_value by done.
    by rewrite bind_eq, get_prop_nullish. }
  rewrite bind_eq, get_prop_value by done.
  destruct (nullish (field (field (field props "data") "site") "siteMetadata")) eqn:Hsm.
  { rewrite bind_eq, get_prop_value by done.
    by rewrite bind_eq, get_prop_nullish. }
  rewrite bind_eq, get_prop_value by done.
  rewrite bind_eq, get_prop_value by done.
  rewrite bind_eq.
  destruct (call (field props "children") w) as [[c|e] w']; reflexivity.
Qed.

(** X1. The TypeError names the property that was being read when the
    chain broke, not the link that is missing: props that are undefined or
    null fail on [children]; a missing or null [data] fails on [site]; a
    missing or null [site] on [siteMetadata]; a missing or null
    [siteMetadata] on [title].  In each case the state is untouched. *)
Theorem failing_read_is_reported props w :
  (nullish props = true ->
   layout COLORS props w = (Throw (TypeError (ReadOfNullish "children")), w))
  /\ (nullish props = false -> nullish (field props "data") = true ->
      layout COLORS props w = (Throw (TypeError (ReadOfNullish "site")), w))
  /\ (nullish (field props "data") = false ->
      nullish (field (field props "data") "site") = true ->
      layout COLORS props w = (Throw (TypeError (ReadOfNullish "siteMetadata")), w))
  /\ (nullish (field (field props "data") "site") = false ->
      metadata_absent props = true ->
      layout COLORS props w = (Throw (TypeError (ReadOfNullish "title")), w)).
Proof.
  rewrite layout_unfold. unfold metadata_absent.
  destruct (nullish props) eqn:Hprops.
  { rewrite (field_nullish _ "data" Hprops). simpl. by repeat split. }
  destruct (nullish (field props "data")) eqn:Hdata.
  { rewrite (field_nullish _ "site" Hdata). simpl. by repeat split. }
  destruct (nullish (field (field props "data") "site")) eqn:Hsite.
  { by repeat split. }
  repeat split; try done. by intros _ ->.
Qed.

(** X2. The title is read as it is.  Any [siteMetadata] that is neither
    undefined nor null will do: the document's title is its [title]
    property, of whatever kind, and undefined when it has none; a missing
    title is no error. *)
Theorem title_is_read_verbatim sm f c w w' :
  nullish sm = false ->
  f w = (Return c, w') ->
  exists doc,
    layout COLORS (layout_props (VFun f) (site_data sm)) w = (Return doc, w')
    /\ doc_title doc = Some (field sm "title").
Proof.
  intros Hsm Hf. eexists. split; [|apply doc_title_jsx].
  rewrite layout_metadata_present.
  - rewrite field_children, site_metadata_of_props. simpl. by rewrite Hf.
  - unfold metadata_absent. by rewrite site_metadata_of_props.
Qed.

(** X3. With the site metadata in place, what the content function throws
    is thrown by the layout, unchanged and with the state the function
    left: the layout catches nothing. *)
Theorem children_exception_propagates props f e w w' :
  metadata_absent props = false ->
  field props "children" = VFun f ->
  f w = (Throw e, w') ->
  layout COLORS props w = (Throw e, w').
Proof.
  intros Hpres Hch Hf. rewrite layout_metadata_present by done.
  rewrite Hch. simpl. by rewrite Hf.
Qed.

(** X4. The layout throws no value of its own: when it ends by throwing a
    value that is no TypeError of the engine, the site metadata was there,
    [children] was a function, and that function threw this value. *)
Theorem thrown_value_comes_from_children props v w w' :
  layout COLORS props w = (Throw (Thrown v), w') ->
  metadata_absent props = false
  /\ exists f, field props "children" = VFun f /\ f w = (Throw (Thrown v), w').
Proof.
  intros Hlayout. destruct (metadata_absent props) eqn:Habs.
  { destruct (layout_metadata_absent props Habs) as [p Hp].
    by rewrite Hp in Hlayout. }
  split; [done|]. rewrite layout_metadata_present in Hlayout by done.
  destruct (field props "children") as [| | | | | | |f|]; try done.
  simpl in Hlayout. exists f. split; [done|].
  destruct (f w) as [[c|e] w'']; [done|]. by injection Hlayout as -> ->.
Qed.

(** X5. Of its props the layout reads [children] and [data] only: props
    objects that agree on these two give the same result, whatever else
    they carry. *)
Theorem other_props_are_ignored (p1 p2 : gmap string val) w :
  p1 !! "children" = p2 !! "children" ->
  p1 !! "data" = p2 !! "data" ->
  layout COLORS (VObj p1) w = layout COLORS (VObj p2) w.
Proof.
  intros Hch Hdata. rewrite !layout_unfold. unfold site_metadata_of. simpl.
  by rewrite Hch, Hdata.
Qed.

(** X6. Of [data] the layout reads [site], and of [site] it reads
    [siteMetadata]: two [data] objects whose sites are objects with the
    same [siteMetadata] give the same result, whatever else the query put
    into [data] and [site]. *)
Theorem other_data_is_ignored (d1 d2 s1 s2 : gmap string val) children w :
  d1 !! "site" = Some (VObj s1) ->
  d2 !! "site" = Some (VObj s2) ->
  s1 !! "siteMetadata" = s2 !! "siteMetadata" ->
  layout COLORS (layout_props children (VObj d1)) w =
  layout COLORS (layout_props children (VObj d2)) w.
Proof.
  intros Hd1 Hd2 Hsm. rewrite !layout_unfold. unfold site_metadata_of.
  rewrite !field_children.
  change (field (layout_props children (VObj d1)) "data") with (VObj d1).
  change (field (layout_props children (VObj d2)) "data") with (VObj d2).
  simpl. rewrite Hd1, Hd2. simpl. by rewrite Hsm.
Qed.

End LayoutFacts.

(** * Instances on concrete inputs *)

(** The title of the configured site, for a page with empty content whose
    content function has an effect. *)
Lemma title_tag_is_site_title_witness :
  ({[ "title" := VStr (title siteMetadata) ]} : gmap string (value nat)) !! "title"
    = Some (VStr (title siteMetadata))
  /\ count_and_return (VStr "") 0 = (Return (VStr ""), 1)
  /\ exists doc,
      layout example_colors (layout_props (counting (VStr "")) (LayoutQuery siteMetadata)) 0
        = (Return doc, 1)
      /\ doc_title doc = Some (VStr "Fahad Almusharraf - Website").
Proof.
  split; [reflexivity|]. split; [reflexivity|].
  apply (title_tag_is_site_title example_colors siteMetadata
           {[ "title" := VStr (title siteMetadata) ]}
           (count_and_return (VStr "")) (VStr "") 0 1); reflexivity.
Defined.

(** Props without [children]: the call [children()] raises, and there is
    no document. *)
Lemma omitted_content_throws :
  ~ exists doc w',
      layout (W:=nat) example_colors (VObj {[ "data" := LayoutQuery siteMetadata ]}) 0
        = (Return doc, w').
Proof. intros (doc & w' & H). vm_compute in H. discriminate H. Qed.

Lemma content_omitted_witness :
  count_and_return VUndefined 0 = (Return VUndefined, 1)
  /\ (exists doc,
        layout example_colors (layout_props (counting VUndefined) (LayoutQuery siteMetadata)) 0
          = (Return doc, 1)
        /\ header_region doc = Some (VElem Header ∅ [])
        /\ doc_style doc = Some [VStr (style_text example_colors)]
        /\ content_region doc = Some [VUndefined])
  /\ layout example_colors (VObj {[ "data" := LayoutQuery siteMetadata ]}) 0
     = (Throw (TypeError NotCallable), 0).
Proof.
  split; [reflexivity|].
  apply (content_omitted example_colors {[ "title" := VStr (title siteMetadata) ]}
           (count_and_return VUndefined) 0 1); reflexivity.
Defined.

(** Markup handed over as [children] is not callable: the layout throws
    although the site metadata is there. *)
Lemma error_with_metadata_present :
  ~ (throws (layout (W:=nat) example_colors
               (layout_props (VStr "<p>Hello</p>") (LayoutQuery siteMetadata)) 0) = true
     <-> metadata_absent (W:=nat)
           (layout_props (VStr "<p>Hello</p>") (LayoutQuery siteMetadata)) = true).
Proof. intros [Hthrows _]. vm_compute in Hthrows. by specialize (Hthrows eq_refl). Qed.

Lemma layout_throws_iff_witness :
  metadata_absent (W:=nat) (layout_props (counting VNull) VUndefined) = true
  /\ (exists p, layout example_colors (layout_props (counting VNull) VUndefined) 0
                = (Throw (TypeError (ReadOfNullish p)), 0))
  /\ throws (layout example_colors
               (layout_props (failing (VStr "boom")) (LayoutQuery siteMetadata)) 0) = true.
Proof.
  split; [reflexivity|]. split.
  - apply (layout_throws_iff example_colors (layout_props (counting VNull) VUndefined) 0).
    reflexivity.
  - apply (layout_throws_iff example_colors
             (layout_props (failing (VStr "boom")) (LayoutQuery siteMetadata)) 0).
    right; right. eexists. split; reflexivity.
Defined.

Lemma fixed_meta_tags_witness :
  count_and_return (VStr "<p>Hello</p>") 0
    = (Return (VStr "<p>Hello</p>"), 1)
  /\ exists doc,
      layout example_colors
        (layout_props (counting (VStr "<p>Hello</p>")) (LayoutQuery siteMetadata)) 0
        = (Return doc, 1)
      /\ meta_content "description" doc = Some (VStr "Personal website")
      /\ meta_content "keywords" doc = Some (VStr "blog, showcase, personal").
Proof.
  split; [reflexivity|].
  apply (fixed_meta_tags example_colors {[ "title" := VStr (title siteMetadata) ]}
           (count_and_return (VStr "<p>Hello</p>")) (VStr "<p>Hello</p>") 0 1).
  reflexivity.
Defined.

Lemma empty_body_renders_empty_region_witness :
  ({[ "title" := VStr (title siteMetadata) ]} : gmap string (value nat)) !! "title"
    = Some (VStr (title siteMetadata))
  /\ count_and_return (VStr "") 0 = (Return (VStr ""), 1)
  /\ empty_content (W:=nat) (VStr "") = true
  /\ exists doc region,
      layout example_colors (layout_props (counting (VStr "")) (LayoutQuery siteMetadata)) 0
        = (Return doc, 1)
      /\ content_region doc = Some region
      /\ forallb empty_content region = true
      /\ doc_title doc = Some (VStr (title siteMetadata))
      /\ header_region doc = Some (VElem Header ∅ [])
      /\ doc_style doc = Some [VStr (style_text example_colors)].
Proof.
  split; [reflexivity|]. split; [reflexivity|]. split; [reflexivity|].
  apply (empty_body_renders_empty_region example_colors siteMetadata
           {[ "title" := VStr (title siteMetadata) ]}
           (count_and_return (VStr "")) (VStr "") 0 1); reflexivity.
Defined.

Lemma shared_frame_witness :
  count_and_return (VStr "<p>Hello</p>") 0 = (Return (VStr "<p>Hello</p>"), 1)
  /\ exists doc helmet,
      layout example_colors
        (layout_props (counting (VStr "<p>Hello</p>")) (LayoutQuery siteMetadata)) 0
        = (Return doc, 1)
      /\ doc = VElem (Body example_colors) ∅
                [helmet; VElem Header ∅ []; VElem Container ∅ [VStr "<p>Hello</p>"]]
      /\ is_elem_of Helmet helmet = true
      /\ header_region doc = Some (VElem Header ∅ [])
      /\ doc_style doc = Some [VStr (style_text example_colors)]
      /\ style_text example_colors =
         nl ++ "        body {" ++ nl
            ++ "          background-color: " ++ "#fafafa" ++ ";" ++ nl
            ++ "        }" ++ nl ++ "    "
      /\ content_region doc = Some [VStr "<p>Hello</p>"].
Proof.
  split; [reflexivity|].
  apply (shared_frame example_colors {[ "title" := VStr (title siteMetadata) ]}
           (count_and_return (VStr "<p>Hello</p>")) (VStr "<p>Hello</p>") 0 1).
  reflexivity.
Defined.

(** Same title, another author. *)
Lemma output_depends_on_title_only_witness :
  metadata_object (W:=nat) siteMetadata !! "title"
    = metadata_object {| title := title siteMetadata; author := "Somebody Else" |} !! "title"
  /\ layout example_colors
       (layout_props (counting (VStr "<p>Hello</p>"))
          (site_data (VObj (metadata_object siteMetadata)))) 0
     = layout example_colors
         (layout_props (counting (VStr "<p>Hello</p>"))
            (site_data (VObj (metadata_object
               {| title := title siteMetadata; author := "Somebody Else" |})))) 0.
Proof.
  split; [reflexivity|].
  apply (output_depends_on_title_only example_colors
           (metadata_object siteMetadata)
           (metadata_object {| title := title siteMetadata; author := "Somebody Else" |})
           (counting (VStr "<p>Hello</p>")) 0).
  reflexivity.
Defined.

Lemma content_is_called_witness :
  layout example_colors
    (layout_props (counting (VStr "<p>Hello</p>")) (LayoutQuery siteMetadata)) 0
    = (Return (layout_jsx example_colors (VStr (title siteMetadata)) (VStr "<p>Hello</p>")), 1)
  /\ exists f c,
      field (layout_props (counting (VStr "<p>Hello</p>")) (LayoutQuery siteMetadata))
        "children" = VFun f
      /\ f 0 = (Return c, 1)
      /\ content_region
           (layout_jsx example_colors (VStr (title siteMetadata)) (VStr "<p>Hello</p>"))
         = Some [c].
Proof.
  split; [reflexivity|].
  apply (content_is_called example_colors
           (layout_props (counting (VStr "<p>Hello</p>")) (LayoutQuery siteMetadata))
           0 _ 1).
  reflexivity.
Defined.

(** The four places where the chain of reads can break. *)
Lemma failing_read_is_reported_witness :
  layout (W:=nat) example_colors VUndefined 0
    = (Throw (TypeError (ReadOfNullish "children")), 0)
  /\ layout example_colors (VObj {[ "children" := counting (VStr "<p>Hello</p>") ]}) 0
     = (Throw (TypeError (ReadOfNullish "site")), 0)
  /\ layout example_colors (layout_props (counting (VStr "<p>Hello</p>")) (VObj ∅)) 0
     = (Throw (TypeError (ReadOfNullish "siteMetadata")), 0)
  /\ layout example_colors
       (layout_props (counting (VStr "<p>Hello</p>")) (VObj {[ "site" := VObj ∅ ]})) 0
     = (Throw (TypeError (ReadOfNullish "title")), 0).
Proof.
  split; [|split; [|split]].
  - apply (failing_read_is_reported example_colors VUndefined 0). reflexivity.
  - apply (failing_read_is_reported example_colors
             (VObj {[ "children" := counting (VStr "<p>Hello</p>") ]}) 0); reflexivity.
  - apply (failing_read_is_reported example_colors
             (layout_props (counting (VStr "<p>Hello</p>")) (VObj ∅)) 0); reflexivity.
  - apply (failing_read_is_reported example_colors
             (layout_props (counting (VStr "<p>Hello</p>")) (VObj {[ "site" := VObj ∅ ]}))
             0); reflexivity.
Defined.

(** Site metadata without a title: the document has an undefined title. *)
Lemma title_is_read_verbatim_witness :
  nullish (W:=nat) (VObj ∅) = false
  /\ count_and_return (VStr "<p>Hello</p>") 0 = (Return (VStr "<p>Hello</p>"), 1)
  /\ exists doc,
      layout example_colors
        (layout_props (counting (VStr "<p>Hello</p>")) (site_data (VObj ∅))) 0
        = (Return doc, 1)
      /\ doc_title doc = Some VUndefined.
Proof.
  split; [reflexivity|]. split; [reflexivity|].
  exact (title_is_read_verbatim example_colors (VObj ∅)
           (count_and_return (VStr "<p>Hello</p>")) (VStr "<p>Hello</p>") 0 1
           eq_refl eq_refl).
Defined.

Lemma children_exception_propagates_witness :
  metadata_absent (layout_props (failing (VStr "boom")) (LayoutQuery siteMetadata)) = false
  /\ field (layout_props (failing (VStr "boom")) (LayoutQuery siteMetadata)) "children"
     = VFun (throw (Thrown (VStr "boom")))
  /\ throw (A:=value nat) (Thrown (VStr "boom")) 0 = (Throw (Thrown (VStr "boom")), 0)
  /\ layout example_colors
       (layout_props (failing (VStr "boom")) (LayoutQuery siteMetadata)) 0
     = (Throw (Thrown (VStr "boom")), 0).
Proof.
  split; [reflexivity|]. split; [reflexivity|]. split; [reflexivity|].
  apply (children_exception_propagates example_colors
           (layout_props (failing (VStr "boom")) (LayoutQuery siteMetadata))
           (throw (Thrown (VStr "boom"))) (Thrown (VStr "boom")) 0 0); reflexivity.
Defined.

Lemma thrown_value_comes_from_children_witness :
  layout example_colors
    (layout_props (failing (VStr "boom")) (LayoutQuery siteMetadata)) 0
    = (Throw (Thrown (VStr "boom")), 0)
  /\ metadata_absent (layout_props (failing (VStr "boom")) (LayoutQuery siteMetadata))
     = false
  /\ exists f,
      field (layout_props (failing (VStr "boom")) (LayoutQuery siteMetadata)) "children"
        = VFun f
      /\ f 0 = (Throw (Thrown (VStr "boom")), 0).
Proof.
  split; [reflexivity|].
  apply (thrown_value_comes_from_children example_colors
           (layout_props (failing (VStr "boom")) (LayoutQuery siteMetadata))
           (VStr "boom") 0 0).
  reflexivity.
Defined.

(** Props with a [location] beside [children] and [data]. *)
Lemma other_props_are_ignored_witness :
  ({[ "children" := counting (VStr "<p>Hello</p>");
      "data" := LayoutQuery siteMetadata ]} : gmap string (value nat)) !! "children"
    = ({[ "children" := counting (VStr "<p>Hello</p>");
          "data" := LayoutQuery siteMetadata;
          "location" := VObj {[ "pathname" := VStr "/" ]} ]}
         : gmap string (value nat)) !! "children"
  /\ ({[ "children" := counting (VStr "<p>Hello</p>");
         "data" := LayoutQuery siteMetadata ]} : gmap string (value nat)) !! "data"
     = ({[ "children" := counting (VStr "<p>Hello</p>");
           "data" := LayoutQuery siteMetadata;
           "location" := VObj {[ "pathname" := VStr "/" ]} ]}
          : gmap string (value nat)) !! "data"
  /\ layout example_colors
       (VObj {[ "children" := counting (VStr "<p>Hello</p>");
                "data" := LayoutQuery siteMetadata ]}) 0
     = layout example_colors
         (VObj {[ "children" := counting (VStr "<p>Hello</p>");
                  "data" := LayoutQuery siteMetadata;
                  "location" := VObj {[ "pathname" := VStr "/" ]} ]}) 0.
Proof.
  split; [reflexivity|]. split; [reflexivity|].
  apply (other_props_are_ignored example_colors
           {[ "children" := counting (VStr "<p>Hello</p>");
              "data" := LayoutQuery siteMetadata ]}
           {[ "children" := counting (VStr "<p>Hello</p>");
              "data" := LayoutQuery siteMetadata;
              "location" := VObj {[ "pathname" := VStr "/" ]} ]} 0); reflexivity.
Defined.

(** A [data] that also carries a list of articles, and a [site] that also
    carries a build time. *)
Lemma other_data_is_ignored_witness :
  ({[ "site" := VObj {[ "siteMetadata" := VObj (metadata_object siteMetadata) ]} ]}
     : gmap string (value nat)) !! "site"
    = Some (VObj {[ "siteMetadata" := VObj (metadata_object siteMetadata) ]})
  /\ ({[ "site" := VObj {[ "siteMetadata" := VObj (metadata_object siteMetadata);
                           "buildTime" := VStr "2015-12-27" ]};
         "allMarkdownRemark" := VArr [] ]} : gmap string (value nat)) !! "site"
     = Some (VObj {[ "siteMetadata" := VObj (metadata_object siteMetadata);
                     "buildTime" := VStr "2015-12-27" ]})
  /\ ({[ "siteMetadata" := VObj (metadata_object siteMetadata) ]}
        : gmap string (value nat)) !! "siteMetadata"
     = ({[ "siteMetadata" := VObj (metadata_object siteMetadata);
           "buildTime" := VStr "2015-12-27" ]} : gmap string (value nat)) !! "siteMetadata"
  /\ layout example_colors
       (layout_props (counting (VStr "<p>Hello</p>"))
          (VObj {[ "site" :=
                     VObj {[ "siteMetadata" := VObj (metadata_object siteMetadata) ]} ]})) 0
     = layout example_colors
         (layout_props (counting (VStr "<p>Hello</p>"))
            (VObj {[ "site" :=
                       VObj {[ "siteMetadata" := VObj (metadata_object siteMetadata);
                               "buildTime" := VStr "2015-12-27" ]};
                     "allMarkdownRemark" := VArr [] ]})) 0.
Proof.
  split; [reflexivity|]. split; [reflexivity|]. split; [reflexivity|].
  apply (other_data_is_ignored example_colors
           {[ "site" := VObj {[ "siteMetadata" := VObj (metadata_object siteMetadata) ]} ]}
           {[ "site" := VObj {[ "siteMetadata" := VObj (metadata_object siteMetadata);
                                "buildTime" := VStr "2015-12-27" ]};
              "allMarkdownRemark" := VArr [] ]}
           {[ "siteMetadata" := VObj (metadata_object siteMetadata) ]}
           {[ "siteMetadata" := VObj (metadata_object siteMetadata);
              "buildTime" := VStr "2015-12-27" ]}
           (counting (VStr "<p>Hello</p>")) 0); reflexivity.
Defined.
